(** * Lifecycle callbacks of [dl/callback.py]

    A shallow embedding of the callback classes ([Callback],
    [CallbackCompose], [MetricCallback], [MultiMetricCallback]) and the
    properties of their hooks.

    Python objects are passed by reference and exceptions do not roll the
    heap back, so a hook is a function from the state it receives to an
    outcome (an exception or [None]) together with the state it leaves. *)

From Stdlib Require Import QArith.
From stdpp Require Import gmap strings list fin_maps pretty.

Local Open Scope string_scope.

(** ** Python values and exceptions *)

(** The values that travel through the hooks: batch inputs, model outputs,
    metric results.  A float is denoted by the rational it equals; the hooks
    never compute with it. *)
#[local] Unset Elimination Schemes.
Inductive pyval : Type :=
| PNone
| PInt (z : Z)
| PFloat (q : Q)
| PStr (s : string)
| PTensor0 (q : Q)
| PList (l : list pyval)
| PTuple (l : list pyval).
#[local] Set Elimination Schemes.

(** [KeyError k] is what [d[k]] raises on a dict without [k]; [TypeError] is
    what [zip] raises on an argument that cannot be iterated;
    [UnsupportedMetricType] is the failure of the value extraction;
    [MetricFnError] stands for whatever a metric function itself raises. *)
Inductive exn : Type :=
| KeyError (k : string)
| TypeError
| UnsupportedMetricType
| MetricFnError (msg : string).

Abbreviation result := (sum exn).

(** ** Hooks as state transformers with exceptions *)

Module Hook.

Definition M (S A : Type) : Type := S → result A * S.

Definition ret {S A} (a : A) : M S A := λ s, (inr a, s).

Definition bind {S A B} (m : M S A) (k : A → M S B) : M S B :=
  λ s, match m s with
       | (inr a, s') => k a s'
       | (inl e, s') => (inl e, s')
       end.

Definition raise {S A} (e : exn) : M S A := λ s, (inl e, s).

Definition get {S} : M S S := λ s, (inr s, s).

Definition modify {S} (f : S → S) : M S unit := λ s, (inr tt, f s).

(** A pure computation that may raise. *)
Definition lift {S A} (r : result A) : M S A :=
  match r with
  | inr a => ret a
  | inl e => raise e
  end.

(** [for x in xs: body(x)]. *)
Fixpoint for_each {S A} (xs : list A) (body : A → M S unit) : M S unit :=
  match xs with
  | [] => ret tt
  | x :: xs' => bind (body x) (λ _, for_each xs' body)
  end.

End Hook.

Import Hook.

Declare Scope hook_scope.
Delimit Scope hook_scope with hook.
Notation "x <- m ;; k" := (bind m (λ x, k))
  (at level 100, m at next level, right associativity) : hook_scope.
Notation "m ;; k" := (bind m (λ _, k))
  (at level 100, right associativity) : hook_scope.
Local Open Scope hook_scope.

(** ** The run state *)

(** The attributes of [state] the callbacks touch. *)
Record RunState : Type := mkRunState {
  input : gmap string pyval;
  output : gmap string pyval;
  batch_metrics : gmap string pyval
}.

Definition set_batch_metrics (f : gmap string pyval → gmap string pyval)
    (st : RunState) : RunState :=
  {| input := input st; output := output st;
     batch_metrics := f (batch_metrics st) |}.

(** [d[k]] on a dict. *)
Definition getitem {S} (d : gmap string pyval) (k : string) : M S pyval :=
  match d !! k with
  | Some v => ret v
  | None => raise (KeyError k)
  end.

(** ** [class Callback] *)

(** The ten hooks of a callback.  A callback's own attributes, when it has
    any that change, are part of the state type [S]. *)
Record Callback (S : Type) : Type := mkCallback {
  on_train_start : M S unit;
  on_train_end : M S unit;
  on_infer_start : M S unit;
  on_infer_end : M S unit;
  on_epoch_start : M S unit;
  on_epoch_end : M S unit;
  on_loader_start : M S unit;
  on_loader_end : M S unit;
  on_batch_start : M S unit;
  on_batch_end : M S unit
}.

Arguments mkCallback {S}.
Arguments on_train_start {S}.
Arguments on_train_end {S}.
Arguments on_infer_start {S}.
Arguments on_infer_end {S}.
Arguments on_epoch_start {S}.
Arguments on_epoch_end {S}.
Arguments on_loader_start {S}.
Arguments on_loader_end {S}.
Arguments on_batch_start {S}.
Arguments on_batch_end {S}.

(** The base class: every hook is [pass]. *)
Module CallbackBase.
Section Hooks.
Context {S : Type}.
Definition on_train_start : M S unit := ret tt.
Definition on_train_end : M S unit := ret tt.
Definition on_infer_start : M S unit := ret tt.
Definition on_infer_end : M S unit := ret tt.
Definition on_epoch_start : M S unit := ret tt.
Definition on_epoch_end : M S unit := ret tt.
Definition on_loader_start : M S unit := ret tt.
Definition on_loader_end : M S unit := ret tt.
Definition on_batch_start : M S unit := ret tt.
Definition on_batch_end : M S unit := ret tt.

Definition self : Callback S :=
  mkCallback on_train_start on_train_end on_infer_start on_infer_end
             on_epoch_start on_epoch_end on_loader_start on_loader_end
             on_batch_start on_batch_end.
End Hooks.
End CallbackBase.

(** The names of the hooks, to speak about all ten at once. *)
Inductive hook : Type :=
| OnTrainStart | OnTrainEnd | OnInferStart | OnInferEnd
| OnEpochStart | OnEpochEnd | OnLoaderStart | OnLoaderEnd
| OnBatchStart | OnBatchEnd.

Definition call {S} (h : hook) (c : Callback S) : M S unit :=
  match h with
  | OnTrainStart => on_train_start c
  | OnTrainEnd => on_train_end c
  | OnInferStart => on_infer_start c
  | OnInferEnd => on_infer_end c
  | OnEpochStart => on_epoch_start c
  | OnEpochEnd => on_epoch_end c
  | OnLoaderStart => on_loader_start c
  | OnLoaderEnd => on_loader_end c
  | OnBatchStart => on_batch_start c
  | OnBatchEnd => on_batch_end c
  end.

(** ** [class CallbackCompose] *)

(** [callbacks] is a dict from names to callbacks; [items()] yields its
    entries in insertion order, so the dict is kept as the list of its
    entries in that order. *)
Record CallbackCompose (S : Type) : Type := mkCallbackCompose {
  callbacks : list (string * Callback S)
}.

Arguments mkCallbackCompose {S}.
Arguments callbacks {S}.

Module Compose.
Section Hooks.
Context {S : Type}.
Implicit Type self : CallbackCompose S.

Definition on_train_start self : M S unit :=
  for_each (callbacks self) (λ '(key, value), on_train_start value).

Definition on_train_end self : M S unit :=
  for_each (callbacks self) (λ '(key, value), on_train_end value).

Definition on_infer_start self : M S unit :=
  for_each (callbacks self) (λ '(key, value), on_infer_start value).

Definition on_infer_end self : M S unit :=
  for_each (callbacks self) (λ '(key, value), on_infer_end value).

Definition on_epoch_start self : M S unit :=
  for_each (callbacks self) (λ '(key, value), on_epoch_start value).

Definition on_epoch_end self : M S unit :=
  for_each (callbacks self) (λ '(key, value), on_epoch_end value).

Definition on_loader_start self : M S unit :=
  for_each (callbacks self) (λ '(key, value), on_loader_start value).

Definition on_loader_end self : M S unit :=
  for_each (callbacks self) (λ '(key, value), on_loader_end value).

Definition on_batch_start self : M S unit :=
  for_each (callbacks self) (λ '(key, value), on_batch_start value).

Definition on_batch_end self : M S unit :=
  for_each (callbacks self) (λ '(key, value), on_batch_end value).

Definition call (h : hook) self : M S unit :=
  match h with
  | OnTrainStart => on_train_start self
  | OnTrainEnd => on_train_end self
  | OnInferStart => on_infer_start self
  | OnInferEnd => on_infer_end self
  | OnEpochStart => on_epoch_start self
  | OnEpochEnd => on_epoch_end self
  | OnLoaderStart => on_loader_start self
  | OnLoaderEnd => on_loader_end self
  | OnBatchStart => on_batch_start self
  | OnBatchEnd => on_batch_end self
  end.
End Hooks.
End Compose.

(** ** Value extraction *)

(** Modelled from the spec: [UtilsFactory.get_val_from_metric] lives in
    [catalyst.utils.factory], outside the file.  A bare number is returned
    as it is, a zero-dimensional tensor gives the number it holds, anything
    else is rejected with [UnsupportedMetricType]. *)
Definition get_val_from_metric (metric : pyval) : result pyval :=
  match metric with
  | PInt z => inr (PInt z)
  | PFloat q => inr (PFloat q)
  | PTensor0 q => inr (PFloat q)
  | _ => inl UnsupportedMetricType
  end.

(** ** [class MetricCallback] *)

(** [**metric_params]: keyword arguments, forwarded as they are. *)
Abbreviation kwargs := (list (string * pyval)).

Module Metric.

Record t : Type := mk {
  prefix : string;
  metric_fn : pyval → pyval → kwargs → result pyval;
  input_key : string;
  output_key : string;
  metric_params : kwargs
}.

(** [__init__] with its defaults for [input_key] and [output_key]. *)
Definition init (prefix : string)
    (metric_fn : pyval → pyval → kwargs → result pyval)
    (metric_params : kwargs) : t :=
  mk prefix metric_fn "targets" "logits" metric_params.

Definition on_batch_end (self : t) : M RunState unit :=
  state <- get;;
  outputs <- getitem (output state) (output_key self);;
  targets <- getitem (input state) (input_key self);;
  metric <- lift (metric_fn self targets outputs (metric_params self));;
  val <- lift (get_val_from_metric metric);;
  modify (set_batch_metrics (insert (prefix self) val)).

(** The class overrides [on_batch_end] and inherits the other hooks. *)
Definition callback (self : t) : Callback RunState :=
  mkCallback CallbackBase.on_train_start CallbackBase.on_train_end
             CallbackBase.on_infer_start CallbackBase.on_infer_end
             CallbackBase.on_epoch_start CallbackBase.on_epoch_end
             CallbackBase.on_loader_start CallbackBase.on_loader_end
             CallbackBase.on_batch_start (on_batch_end self).

End Metric.

(** ** [class MultiMetricCallback] *)

(** An element of [list_args]: a string, or an integer such as the [k] of a
    top-[k] metric. *)
Inductive label : Type :=
| LStr (s : string)
| LInt (z : Z).

(** [f"{arg}"]. *)
Definition format (arg : label) : string :=
  match arg with
  | LStr s => s
  | LInt z => pretty z
  end.

(** What [iter] gives on a value: the elements of a list or tuple, the
    characters of a string; the other values are not iterable. *)
Definition py_iter (v : pyval) : result (list pyval) :=
  match v with
  | PList l => inr l
  | PTuple l => inr l
  | PStr s => inr ((λ c, PStr (String c EmptyString)) <$> String.list_ascii_of_string s)
  | _ => inl TypeError
  end.

Module MultiMetric.

Record t : Type := mk {
  prefix : string;
  metric_fn : pyval → pyval → list label → kwargs → result pyval;
  list_args : list label;
  input_key : string;
  output_key : string;
  metric_params : kwargs
}.

Definition init (prefix : string)
    (metric_fn : pyval → pyval → list label → kwargs → result pyval)
    (list_args : list label) (metric_params : kwargs) : t :=
  mk prefix metric_fn list_args "targets" "logits" metric_params.

(** [f"{self.prefix}_{arg}"]. *)
Definition key_of (self : t) (arg : label) : string :=
  prefix self +:+ "_" +:+ format arg.

Definition on_batch_end (self : t) : M RunState unit :=
  state <- get;;
  outputs <- getitem (output state) (output_key self);;
  targets <- getitem (input state) (input_key self);;
  metrics <- lift (metric_fn self targets outputs (list_args self)
                             (metric_params self));;
  its <- lift (py_iter metrics);;
  for_each (zip (list_args self) its) (λ '(arg, metric),
    let key := key_of self arg in
    val <- lift (get_val_from_metric metric);;
    modify (set_batch_metrics (insert key val))).

Definition callback (self : t) : Callback RunState :=
  mkCallback CallbackBase.on_train_start CallbackBase.on_train_end
             CallbackBase.on_infer_start CallbackBase.on_infer_end
             CallbackBase.on_epoch_start CallbackBase.on_epoch_end
             CallbackBase.on_loader_start CallbackBase.on_loader_end
             CallbackBase.on_batch_start (on_batch_end self).

End MultiMetric.

(** ** What a hook writes *)

(** The stores [batch_metrics[k] = v] of a list of pairs, first to last. *)
Definition apply_writes (ws : list (string * pyval))
    (bm : gmap string pyval) : gmap string pyval :=
  foldl (λ bm kv, <[kv.1 := kv.2]> bm) bm ws.

(** The stores the loop of [MultiMetricCallback.on_batch_end] makes over the
    pairs [ps] and how it ends: it stops at the first metric the extraction
    rejects. *)
Fixpoint loop_effect (key : label → string) (ps : list (label * pyval))
    : result unit * list (string * pyval) :=
  match ps with
  | [] => (inr tt, [])
  | (arg, metric) :: ps' =>
      match get_val_from_metric metric with
      | inl e => (inl e, [])
      | inr val =>
          let r := loop_effect key ps' in (r.1, (key arg, val) :: r.2)
      end
  end.

(** How [MetricCallback.on_batch_end] ends and what it stores, from the
    two dicts it reads. *)
Definition Metric_effect (self : Metric.t) (inp out : gmap string pyval)
    : result unit * list (string * pyval) :=
  match out !! Metric.output_key self with
  | None => (inl (KeyError (Metric.output_key self)), [])
  | Some outputs =>
      match inp !! Metric.input_key self with
      | None => (inl (KeyError (Metric.input_key self)), [])
      | Some targets =>
          match Metric.metric_fn self targets outputs
                  (Metric.metric_params self) with
          | inl e => (inl e, [])
          | inr metric =>
              match get_val_from_metric metric with
              | inl e => (inl e, [])
              | inr val => (inr tt, [(Metric.prefix self, val)])
              end
          end
      end
  end.

(** The same for [MultiMetricCallback.on_batch_end]. *)
Definition MultiMetric_effect (self : MultiMetric.t)
    (inp out : gmap string pyval) : result unit * list (string * pyval) :=
  match out !! MultiMetric.output_key self with
  | None => (inl (KeyError (MultiMetric.output_key self)), [])
  | Some outputs =>
      match inp !! MultiMetric.input_key self with
      | None => (inl (KeyError (MultiMetric.input_key self)), [])
      | Some targets =>
          match MultiMetric.metric_fn self targets outputs
                  (MultiMetric.list_args self)
                  (MultiMetric.metric_params self) with
          | inl e => (inl e, [])
          | inr metrics =>
              match py_iter metrics with
              | inl e => (inl e, [])
              | inr its =>
                  loop_effect (MultiMetric.key_of self)
                              (zip (MultiMetric.list_args self) its)
              end
          end
      end
  end.

(** ** A batch and some callbacks, for examples *)

Definition batch0 : RunState :=
  {| input := {[ "targets" := PList [PInt 1; PInt 0] ]};
     output := {[ "logits" := PList [PFloat (9 # 10); PFloat (1 # 5)] ]};
     batch_metrics := {[ "acc" := PFloat (1 # 2) ]} |}.

(** A batch the driver has not filled. *)
Definition empty_batch : RunState :=
  {| input := ∅; output := ∅; batch_metrics := {[ "acc" := PFloat (1 # 2) ]} |}.

Definition acc_callback : Metric.t :=
  Metric.init "acc" (λ _ _ _, inr (PFloat (3 # 4))) [].

Definition p_callback (args : list label) (metrics : list pyval)
    : MultiMetric.t :=
  MultiMetric.init "p" (λ _ _ _ _, inr (PList metrics)) args [].

(** A callback that appends its name to a log at every hook; the log is
    the state. *)
Definition logger (name : string) : Callback (list string) :=
  let note : M (list string) unit := modify (λ log : list string, (log ++ [name])%list) in
  mkCallback note note note note note note note note note note.

(** A callback that, at the end of a batch, reads the metric ["acc"] and
    stores it again under ["seen"]. *)
Definition seen_callback : Callback RunState :=
  mkCallback CallbackBase.on_train_start CallbackBase.on_train_end
             CallbackBase.on_infer_start CallbackBase.on_infer_end
             CallbackBase.on_epoch_start CallbackBase.on_epoch_end
             CallbackBase.on_loader_start CallbackBase.on_loader_end
             CallbackBase.on_batch_start
             (state <- get;;
              acc <- getitem (batch_metrics state) "acc";;
              modify (set_batch_metrics (insert "seen" acc))).

(** A batch with no metrics yet. *)
Definition fresh_batch : RunState :=
  {| input := input batch0; output := output batch0; batch_metrics := ∅ |}.

(** ** The callbacks of the file, as a collection *)

(** An instance of one of the three callback classes. *)
Inductive builtin : Type :=
| OfCallback
| OfMetricCallback (self : Metric.t)
| OfMultiMetricCallback (self : MultiMetric.t).

Definition builtin_callback (b : builtin) : Callback RunState :=
  match b with
  | OfCallback => CallbackBase.self
  | OfMetricCallback self => Metric.callback self
  | OfMultiMetricCallback self => MultiMetric.callback self
  end.

(** [CallbackCompose(callbacks)] for a dict of such instances. *)
Definition builtin_compose (bs : list (string * builtin))
    : CallbackCompose RunState :=
  mkCallbackCompose ((λ kb, (kb.1, builtin_callback kb.2)) <$> bs).

(** * Properties *)

(** ** The loop *)

Section ForEach.
Context {S A : Type}.
Implicit Types (xs ys : list A) (body : A → M S unit) (s : S).

(** A loop over [xs ++ ys] is the loop over [xs], followed, unless it
    raised, by the loop over [ys] from the state it left. *)
Lemma for_each_app xs ys body s :
  for_each (xs ++ ys) body s =
  match for_each xs body s with
  | (inr _, s') => for_each ys body s'
  | (inl e, s') => (inl e, s')
  end.
Proof.
  revert s. induction xs as [|x xs IH]; intros s; simpl; [done|].
  unfold bind. destruct (body x s) as [[e|[]] s1]; [done|].
  apply IH.
Qed.

Lemma for_each_singleton (x : A) body s : for_each [x] body s = body x s.
Proof.
  simpl. unfold bind, ret. by destruct (body x s) as [[e|[]] s1].
Qed.

Lemma for_each_ext xs body body' :
  (∀ x, body x = body' x) → for_each xs body = for_each xs body'.
Proof. intros E. induction xs as [|x xs IH]; simpl; [done|]. by rewrite E, IH. Qed.
End ForEach.

(** ** The dispatcher *)

(** All ten methods of [CallbackCompose] are the same loop, over the hook of
    the same name. *)
Lemma Compose_call_for_each {S} (h : hook) (D : CallbackCompose S) :
  Compose.call h D = for_each (callbacks D) (λ kv, call h kv.2).
Proof. destruct h; simpl; apply for_each_ext; by intros [key value]. Qed.

(** A callback anywhere in the collection runs on the state left by the
    callbacks before it, and the callbacks after it run on the state it
    leaves; an exception stops the dispatch where it is raised. *)
Lemma Compose_call_split {S} (h : hook) (before after : list (string * Callback S))
    (key : string) (value : Callback S) (s : S) :
  Compose.call h (mkCallbackCompose (before ++ (key, value) :: after)) s =
  match Compose.call h (mkCallbackCompose before) s with
  | (inr _, s1) =>
      match call h value s1 with
      | (inr _, s2) => Compose.call h (mkCallbackCompose after) s2
      | (inl e, s2) => (inl e, s2)
      end
  | (inl e, s1) => (inl e, s1)
  end.
Proof.
  rewrite !Compose_call_for_each. simpl. rewrite for_each_app.
  destruct (for_each before _ s) as [[e|[]] s1]; [done|].
  simpl. unfold bind. by destruct (call h value s1) as [[e|[]] s2].
Qed.

(** claim C1: the dispatcher's hook [h] calls the hook [h] of the callbacks
    one after another in the order of the collection, each on the state the
    one before it left: when [ss] lists the states the callbacks leave, the
    i-th one being run on the state left by the one before it (the first on
    the state of the call), the dispatch returns and leaves the last of
    them. *)
Theorem CallbackCompose_dispatch_in_order {S} (h : hook)
    (D : CallbackCompose S) (s0 : S) (ss : list S) :
  length ss = length (callbacks D) →
  (∀ i key value, callbacks D !! i = Some (key, value) →
     ∃ s s', (s0 :: ss) !! i = Some s ∧ ss !! i = Some s' ∧
             call h value s = (inr tt, s')) →
  Compose.call h D s0 = (inr tt, default s0 (last ss)).
Proof.
  rewrite Compose_call_for_each. destruct D as [cs]. simpl.
  revert s0 ss. induction cs as [|[key value] cs IH]; intros s0 ss Hlen Hstep.
  - by destruct ss.
  - destruct ss as [|s1 ss]; [done|]. simpl in Hlen.
    destruct (Hstep 0 key value eq_refl) as (s & s' & Hs & Hs' & Hcall).
    simpl in Hs, Hs'. injection Hs as <-. injection Hs' as <-.
    simpl. unfold bind. rewrite Hcall.
    rewrite (IH s1 ss); [| lia |].
    + f_equal. rewrite last_cons. by destruct (last ss).
    + intros i k v Hi. apply (Hstep (Datatypes.S i) k v Hi).
Qed.

(** An exception of a callback leaves the dispatch at once, with the state
    as the callback left it; the callbacks after it are not run. *)
Lemma CallbackCompose_dispatch_raises {S} (h : hook)
    (before after : list (string * Callback S)) (key : string)
    (value : Callback S) (s0 s1 s2 : S) (e : exn) :
  Compose.call h (mkCallbackCompose before) s0 = (inr tt, s1) →
  call h value s1 = (inl e, s2) →
  Compose.call h (mkCallbackCompose (before ++ (key, value) :: after)) s0
  = (inl e, s2).
Proof. intros H1 H2. by rewrite Compose_call_split, H1, H2. Qed.

(** ** The base class *)

(** claim C7: each of the ten hooks of the base class returns and leaves the
    run state as it found it. *)
Theorem Callback_hooks_do_nothing (h : hook) (st : RunState) :
  call h CallbackBase.self st = (inr tt, st).
Proof. by destruct h. Qed.

(** ** Stores into [batch_metrics] *)

Section Writes.
Implicit Types (ws : list (string * pyval)) (bm : gmap string pyval).

Lemma apply_writes_cons k v ws bm :
  apply_writes ((k, v) :: ws) bm = apply_writes ws (<[k := v]> bm).
Proof. done. Qed.

(** A key no store names keeps its entry. *)
Lemma apply_writes_lookup_other ws bm (k : string) :
  (∀ j k' v', ws !! j = Some (k', v') → k' ≠ k) →
  apply_writes ws bm !! k = bm !! k.
Proof.
  revert bm. induction ws as [|[k0 v0] ws IH]; intros bm Hne; [done|].
  rewrite apply_writes_cons, IH.
  - apply lookup_insert_ne. by apply (Hne 0 k0 v0).
  - intros j k' v' Hj. by apply (Hne (S j) k' v').
Qed.

(** The last store to a key decides its entry. *)
Lemma apply_writes_lookup_last ws bm (j : nat) (k : string) (v : pyval) :
  ws !! j = Some (k, v) →
  (∀ j' k' v', j < j' → ws !! j' = Some (k', v') → k' ≠ k) →
  apply_writes ws bm !! k = Some v.
Proof.
  revert bm j. induction ws as [|[k0 v0] ws IH]; intros bm j Hj Hlast; [done|].
  rewrite apply_writes_cons. destruct j as [|j].
  - injection Hj as -> ->. rewrite apply_writes_lookup_other.
    + apply lookup_insert_eq.
    + intros j' k' v' Hj'. apply (Hlast (S j') k' v'); [lia|done].
  - apply (IH _ j Hj). intros j' k' v' Hlt Hj'.
    apply (Hlast (S j') k' v'); [lia|done].
Qed.

(** The stores amount to laying a map of their own, which depends on
    nothing but the stores, over the one they are made into. *)
Lemma apply_writes_union ws bm :
  apply_writes ws bm = apply_writes ws ∅ ∪ bm.
Proof.
  revert bm. induction ws as [|[k v] ws IH]; intros bm.
  - symmetry. apply (left_id_L ∅ (∪)).
  - rewrite !apply_writes_cons, (IH (<[k:=v]> bm)), (IH (<[k:=v]> ∅)).
    rewrite insert_empty, <-(assoc_L (∪)). f_equal.
    apply insert_union_singleton_l.
Qed.

Lemma set_batch_metrics_twice f g st :
  set_batch_metrics f (set_batch_metrics g st) = set_batch_metrics (f ∘ g) st.
Proof. done. Qed.

Lemma set_batch_metrics_nothing st : set_batch_metrics (apply_writes []) st = st.
Proof. by destruct st. Qed.
End Writes.

(** ** The metric callbacks, summarised *)

(** [MetricCallback.on_batch_end] ends as [Metric_effect] says and leaves
    the state with the stores of [Metric_effect] made, and nothing else
    changed. *)
Lemma Metric_on_batch_end_effect (self : Metric.t) (st : RunState) :
  let eff := Metric_effect self (input st) (output st) in
  Metric.on_batch_end self st
  = (eff.1, set_batch_metrics (apply_writes eff.2) st).
Proof.
  unfold Metric.on_batch_end, Metric_effect, bind, get, getitem. simpl.
  destruct (output st !! _) as [outputs|]; simpl;
    [|by rewrite set_batch_metrics_nothing].
  destruct (input st !! _) as [targets|]; simpl;
    [|by rewrite set_batch_metrics_nothing].
  destruct (Metric.metric_fn _ _ _ _) as [e|metric]; simpl;
    [by rewrite set_batch_metrics_nothing|].
  destruct (get_val_from_metric metric) as [e|val]; simpl;
    [by rewrite set_batch_metrics_nothing|done].
Qed.

(** The loop of [MultiMetricCallback.on_batch_end]. *)
Lemma MultiMetric_loop_effect (self : MultiMetric.t)
    (ps : list (label * pyval)) (st : RunState) :
  let eff := loop_effect (MultiMetric.key_of self) ps in
  for_each ps (λ '(arg, metric),
    let key := MultiMetric.key_of self arg in
    val <- lift (get_val_from_metric metric);;
    modify (set_batch_metrics (insert key val))) st
  = (eff.1, set_batch_metrics (apply_writes eff.2) st).
Proof.
  revert st. induction ps as [|[arg metric] ps IH]; intros st; simpl.
  - by rewrite set_batch_metrics_nothing.
  - unfold bind at 1 2.
    destruct (get_val_from_metric metric) as [e|val]; simpl.
    + by rewrite set_batch_metrics_nothing.
    + unfold modify at 1. simpl in IH. by rewrite IH.
Qed.

Lemma MultiMetric_on_batch_end_effect (self : MultiMetric.t) (st : RunState) :
  let eff := MultiMetric_effect self (input st) (output st) in
  MultiMetric.on_batch_end self st
  = (eff.1, set_batch_metrics (apply_writes eff.2) st).
Proof.
  unfold MultiMetric.on_batch_end, MultiMetric_effect.
  unfold bind at 1 2 3 4 5, get, getitem. simpl.
  destruct (output st !! _) as [outputs|]; simpl;
    [|by rewrite set_batch_metrics_nothing].
  destruct (input st !! _) as [targets|]; simpl;
    [|by rewrite set_batch_metrics_nothing].
  destruct (MultiMetric.metric_fn _ _ _ _ _) as [e|metrics]; simpl;
    [by rewrite set_batch_metrics_nothing|].
  destruct (py_iter metrics) as [e|its]; simpl;
    [by rewrite set_batch_metrics_nothing|].
  apply MultiMetric_loop_effect.
Qed.

(** ** [MetricCallback.on_batch_end] *)

Lemma Metric_on_batch_end_ok (self : Metric.t) (st : RunState)
    (targets outputs metric val : pyval) :
  output st !! Metric.output_key self = Some outputs →
  input st !! Metric.input_key self = Some targets →
  Metric.metric_fn self targets outputs (Metric.metric_params self)
    = inr metric →
  get_val_from_metric metric = inr val →
  Metric.on_batch_end self st
  = (inr tt, set_batch_metrics (insert (Metric.prefix self) val) st).
Proof.
  intros Ho Hi Hm Hv. rewrite Metric_on_batch_end_effect.
  unfold Metric_effect. by rewrite Ho, Hi, Hm, Hv.
Qed.

(** claim C2: with both keys present, [on_batch_end] calls the metric
    function on the targets and the outputs with the extra parameters,
    extracts the value of what it returns and stores it under the prefix,
    in place of what was there and touching nothing else; with the prefix
    ["acc"] and a metric function that always returns 0.75, the entry
    ["acc"] is 0.75 afterwards. *)
Theorem MetricCallback_on_batch_end_stores :
  (∀ (self : Metric.t) (st : RunState) (targets outputs metric val : pyval),
     output st !! Metric.output_key self = Some outputs →
     input st !! Metric.input_key self = Some targets →
     Metric.metric_fn self targets outputs (Metric.metric_params self)
       = inr metric →
     get_val_from_metric metric = inr val →
     ∃ st', Metric.on_batch_end self st = (inr tt, st') ∧
            input st' = input st ∧ output st' = output st ∧
            batch_metrics st' !! Metric.prefix self = Some val ∧
            ∀ k, k ≠ Metric.prefix self →
                 batch_metrics st' !! k = batch_metrics st !! k)
  ∧
  (∀ (st : RunState) (ikey okey : string) (params : kwargs)
     (targets outputs : pyval),
     output st !! okey = Some outputs →
     input st !! ikey = Some targets →
     let self := Metric.mk "acc" (λ _ _ _, inr (PFloat (3 # 4)))
                           ikey okey params in
     ∃ st', Metric.on_batch_end self st = (inr tt, st') ∧
            batch_metrics st' !! "acc" = Some (PFloat (3 # 4))).
Proof.
  split.
  - intros self st targets outputs metric val Ho Hi Hm Hv.
    eexists. split; [by eapply Metric_on_batch_end_ok|]. simpl.
    repeat split; [apply lookup_insert_eq|].
    intros k Hk. by apply lookup_insert_ne.
  - intros st ikey okey params targets outputs Ho Hi self.
    eexists. split.
    + by apply (Metric_on_batch_end_ok self st targets outputs
                  (PFloat (3 # 4)) (PFloat (3 # 4))).
    + apply lookup_insert_eq.
Qed.

Lemma MetricCallback_on_batch_end_stores_witness :
  output batch0 !! "logits" = Some (PList [PFloat (9 # 10); PFloat (1 # 5)]) ∧
  input batch0 !! "targets" = Some (PList [PInt 1; PInt 0]) ∧
  batch_metrics batch0 !! "acc" = Some (PFloat (1 # 2)) ∧
  ∃ st', Metric.on_batch_end acc_callback batch0 = (inr tt, st') ∧
         batch_metrics st' !! "acc" = Some (PFloat (3 # 4)).
Proof.
  split; [reflexivity|]. split; [reflexivity|]. split; [reflexivity|].
  apply (proj2 MetricCallback_on_batch_end_stores batch0 "targets" "logits" []
           (PList [PInt 1; PInt 0]) (PList [PFloat (9 # 10); PFloat (1 # 5)]));
    reflexivity.
Defined.

(** claim C4: when the output key is not in [state.output] or the input key
    is not in [state.input], [on_batch_end] raises [KeyError] for the key it
    missed and the state, [batch_metrics] included, is as it was. *)
Theorem MetricCallback_on_batch_end_missing_key (self : Metric.t)
    (st : RunState) :
  output st !! Metric.output_key self = None ∨
  input st !! Metric.input_key self = None →
  ∃ k, (k = Metric.output_key self ∨ k = Metric.input_key self) ∧
       Metric.on_batch_end self st = (inl (KeyError k), st).
Proof.
  intros Hmiss. rewrite Metric_on_batch_end_effect. unfold Metric_effect.
  destruct (output st !! Metric.output_key self) as [outputs|] eqn:Ho.
  - destruct Hmiss as [?|Hi]; [done|]. rewrite Hi. simpl.
    exists (Metric.input_key self).
    rewrite set_batch_metrics_nothing. auto.
  - simpl. exists (Metric.output_key self).
    rewrite set_batch_metrics_nothing. auto.
Qed.

Lemma MetricCallback_on_batch_end_missing_key_witness :
  (output empty_batch !! "logits" = None ∨
   input empty_batch !! "targets" = None) ∧
  ∃ k, (k = "logits" ∨ k = "targets") ∧
       Metric.on_batch_end acc_callback empty_batch
       = (inl (KeyError k), empty_batch).
Proof.
  split; [left; reflexivity|].
  apply (MetricCallback_on_batch_end_missing_key acc_callback empty_batch).
  left; reflexivity.
Defined.

(** ** [MultiMetricCallback.on_batch_end] *)

(** [zip] pairs by position and stops with the shorter list: when the
    results it reaches are all accepted by the extraction, the loop ends
    well after one store per pair. *)
Lemma loop_effect_ok (key : label → string) (args : list label)
    (ms vs : list pyval) :
  Forall2 (λ m v, get_val_from_metric m = inr v) (take (length args) ms) vs →
  loop_effect key (zip args ms) = (inr tt, zip (key <$> args) vs).
Proof.
  revert ms vs. induction args as [|arg args IH]; intros ms vs Hvs; [done|].
  destruct ms as [|m ms]; simpl in Hvs.
  - by inversion Hvs.
  - inversion Hvs as [|? v ? vs' Hv Hvs']; subst. simpl.
    by rewrite Hv, (IH ms vs' Hvs').
Qed.

Lemma MultiMetric_on_batch_end_ok (self : MultiMetric.t) (st : RunState)
    (targets outputs metrics : pyval) (ms vs : list pyval) :
  output st !! MultiMetric.output_key self = Some outputs →
  input st !! MultiMetric.input_key self = Some targets →
  MultiMetric.metric_fn self targets outputs (MultiMetric.list_args self)
    (MultiMetric.metric_params self) = inr metrics →
  py_iter metrics = inr ms →
  Forall2 (λ m v, get_val_from_metric m = inr v)
          (take (length (MultiMetric.list_args self)) ms) vs →
  MultiMetric.on_batch_end self st
  = (inr tt,
     set_batch_metrics
       (apply_writes (zip (MultiMetric.key_of self <$> MultiMetric.list_args self) vs))
       st).
Proof.
  intros Ho Hi Hm Hit Hvs. rewrite MultiMetric_on_batch_end_effect.
  unfold MultiMetric_effect. rewrite Ho, Hi, Hm, Hit.
  by rewrite (loop_effect_ok _ _ _ vs Hvs).
Qed.

(** The entries after the stores of the pairs of [keys] and [vs]: a key gets
    the value at the last position that names it, and a key that no position
    names keeps its entry. *)
Lemma apply_writes_zip_last (keys : list string) (vs : list pyval)
    (bm : gmap string pyval) (j : nat) (k : string) (v : pyval) :
  keys !! j = Some k → vs !! j = Some v →
  (∀ j' k', j < j' → j' < length vs → keys !! j' = Some k' → k' ≠ k) →
  apply_writes (zip keys vs) bm !! k = Some v.
Proof.
  intros Hk Hv Hlast. apply (apply_writes_lookup_last _ _ j).
  - apply lookup_zip_with_Some. by exists k, v.
  - intros j' k' v' Hlt Hj'.
    apply lookup_zip_with_Some in Hj' as (k'' & v'' & [= -> ->] & Hk' & Hv').
    apply (Hlast j'); [done| |done]. by apply lookup_lt_Some in Hv'.
Qed.

Lemma apply_writes_zip_other (keys : list string) (vs : list pyval)
    (bm : gmap string pyval) (k : string) :
  (∀ j k', j < length vs → keys !! j = Some k' → k' ≠ k) →
  apply_writes (zip keys vs) bm !! k = bm !! k.
Proof.
  intros Hne. apply apply_writes_lookup_other. intros j k' v' Hj.
  apply lookup_zip_with_Some in Hj as (k'' & v'' & [= -> ->] & Hk' & Hv').
  apply (Hne j); [|done]. by apply lookup_lt_Some in Hv'.
Qed.

(** The state after a call that reaches the loop with results it can
    extract, whatever the two lengths are: the pairs are those of the
    positions both sequences have. *)
Lemma MultiMetric_on_batch_end_positions (self : MultiMetric.t)
    (st : RunState) (targets outputs metrics : pyval) (ms vs : list pyval) :
  output st !! MultiMetric.output_key self = Some outputs →
  input st !! MultiMetric.input_key self = Some targets →
  MultiMetric.metric_fn self targets outputs (MultiMetric.list_args self)
    (MultiMetric.metric_params self) = inr metrics →
  py_iter metrics = inr ms →
  Forall2 (λ m v, get_val_from_metric m = inr v)
          (take (length (MultiMetric.list_args self)) ms) vs →
  ∃ st', MultiMetric.on_batch_end self st = (inr tt, st') ∧
    input st' = input st ∧ output st' = output st ∧
    (∀ i arg v,
       MultiMetric.list_args self !! i = Some arg → vs !! i = Some v →
       (∀ j arg', i < j → j < length ms →
          MultiMetric.list_args self !! j = Some arg' →
          MultiMetric.key_of self arg' ≠ MultiMetric.key_of self arg) →
       batch_metrics st' !! MultiMetric.key_of self arg = Some v) ∧
    (∀ k,
       (∀ j arg, j < length ms → MultiMetric.list_args self !! j = Some arg →
          MultiMetric.key_of self arg ≠ k) →
       batch_metrics st' !! k = batch_metrics st !! k).
Proof.
  intros Ho Hi Hm Hit Hvs. eexists.
  split; [by eapply MultiMetric_on_batch_end_ok|]. simpl.
  assert (length vs ≤ length ms)%nat as Hle.
  { apply Forall2_length in Hvs. rewrite length_take in Hvs. lia. }
  repeat split.
  - intros i arg v Harg Hv Hlast. apply (apply_writes_zip_last _ _ _ i).
    + by rewrite list_lookup_fmap, Harg.
    + done.
    + intros j' k' Hlt Hlen Hk'. rewrite list_lookup_fmap in Hk'.
      destruct (MultiMetric.list_args self !! j') as [arg'|] eqn:Harg';
        [|done]. injection Hk' as <-.
      apply (Hlast j'); [done|lia|done].
  - intros k Hne. apply apply_writes_zip_other. intros j k' Hlen Hk'.
    rewrite list_lookup_fmap in Hk'.
    destruct (MultiMetric.list_args self !! j) as [arg'|] eqn:Harg';
      [|done]. injection Hk' as <-.
    apply (Hne j); [lia|done].
Qed.

(** claim C3: with both keys present and a metric function that returns as
    many results as there are labels, [on_batch_end] pairs label and result
    by position and stores the extracted value of each result under
    [prefix_label]: afterwards a composed key holds the value of its
    position (of the last position with that key, when several compose the
    same), and the other keys hold what they held.  With prefix ["p"],
    labels [["a"; "b"]] and results [[1; 2]] the metrics afterwards are the
    earlier ones with [p_a = 1] and [p_b = 2] stored. *)
Theorem MultiMetricCallback_on_batch_end_pairs_by_position :
  (∀ (self : MultiMetric.t) (st : RunState) (targets outputs metrics : pyval)
     (ms vs : list pyval),
     output st !! MultiMetric.output_key self = Some outputs →
     input st !! MultiMetric.input_key self = Some targets →
     MultiMetric.metric_fn self targets outputs (MultiMetric.list_args self)
       (MultiMetric.metric_params self) = inr metrics →
     py_iter metrics = inr ms →
     length ms = length (MultiMetric.list_args self) →
     Forall2 (λ m v, get_val_from_metric m = inr v) ms vs →
     ∃ st', MultiMetric.on_batch_end self st = (inr tt, st') ∧
       (∀ i arg v,
          MultiMetric.list_args self !! i = Some arg → vs !! i = Some v →
          (∀ j arg', i < j → MultiMetric.list_args self !! j = Some arg' →
             MultiMetric.key_of self arg' ≠ MultiMetric.key_of self arg) →
          batch_metrics st' !! MultiMetric.key_of self arg = Some v) ∧
       (∀ k,
          (∀ arg, arg ∈ MultiMetric.list_args self →
             MultiMetric.key_of self arg ≠ k) →
          batch_metrics st' !! k = batch_metrics st !! k))
  ∧
  (∀ (st : RunState) (ikey okey : string) (params : kwargs)
     (targets outputs : pyval),
     output st !! okey = Some outputs →
     input st !! ikey = Some targets →
     let self := MultiMetric.mk "p" (λ _ _ _ _, inr (PList [PInt 1; PInt 2]))
                                [LStr "a"; LStr "b"] ikey okey params in
     ∃ st', MultiMetric.on_batch_end self st = (inr tt, st') ∧
       batch_metrics st'
       = <["p_b" := PInt 2]> (<["p_a" := PInt 1]> (batch_metrics st))).
Proof.
  split.
  - intros self st targets outputs metrics ms vs Ho Hi Hm Hit Hlen Hvs.
    destruct (MultiMetric_on_batch_end_positions self st targets outputs
                metrics ms vs Ho Hi Hm Hit)
      as (st' & Hrun & _ & _ & Hlast & Hother).
    { by rewrite <-Hlen, firstn_all. }
    exists st'. split; [done|]. split.
    + intros i arg v Harg Hv Hlater. apply (Hlast i arg v Harg Hv).
      intros j arg' Hlt _. by apply Hlater.
    + intros k Hne. apply Hother. intros j arg _ Harg. apply Hne.
      by eapply list_elem_of_lookup_2.
  - intros st ikey okey params targets outputs Ho Hi self.
    eexists. split.
    + by apply (MultiMetric_on_batch_end_ok self st targets outputs
                  (PList [PInt 1; PInt 2]) [PInt 1; PInt 2] [PInt 1; PInt 2]);
        [..|repeat constructor].
    + reflexivity.
Qed.

Lemma MultiMetricCallback_on_batch_end_pairs_by_position_witness :
  output batch0 !! "logits" = Some (PList [PFloat (9 # 10); PFloat (1 # 5)]) ∧
  input batch0 !! "targets" = Some (PList [PInt 1; PInt 0]) ∧
  ∃ st',
    MultiMetric.on_batch_end
      (p_callback [LStr "a"; LStr "b"] [PInt 1; PInt 2]) batch0
    = (inr tt, st') ∧
    batch_metrics st'
    = <["p_b" := PInt 2]> (<["p_a" := PInt 1]> {[ "acc" := PFloat (1 # 2) ]}).
Proof.
  split; [reflexivity|]. split; [reflexivity|].
  apply (proj2 MultiMetricCallback_on_batch_end_pairs_by_position batch0
           "targets" "logits" [] (PList [PInt 1; PInt 0])
           (PList [PFloat (9 # 10); PFloat (1 # 5)])); reflexivity.
Defined.

(** claim C6: when a label occurs twice in [list_args], [on_batch_end]
    raises nothing on that account and the composed key holds afterwards
    the value of the later position (of the last one, when it occurs more
    often); with prefix ["p"], labels [["a"; "a"]] and results [[1; 2]],
    [p_a] is 2 afterwards. *)
Theorem MultiMetricCallback_duplicate_labels_last_write_wins :
  (∀ (self : MultiMetric.t) (st : RunState) (targets outputs metrics : pyval)
     (ms vs : list pyval) (i j : nat) (arg : label) (v : pyval),
     output st !! MultiMetric.output_key self = Some outputs →
     input st !! MultiMetric.input_key self = Some targets →
     MultiMetric.metric_fn self targets outputs (MultiMetric.list_args self)
       (MultiMetric.metric_params self) = inr metrics →
     py_iter metrics = inr ms →
     length ms = length (MultiMetric.list_args self) →
     Forall2 (λ m v, get_val_from_metric m = inr v) ms vs →
     i < j →
     MultiMetric.list_args self !! i = Some arg →
     MultiMetric.list_args self !! j = Some arg →
     vs !! j = Some v →
     (∀ j' arg', j < j' → MultiMetric.list_args self !! j' = Some arg' →
        MultiMetric.key_of self arg' ≠ MultiMetric.key_of self arg) →
     ∃ st', MultiMetric.on_batch_end self st = (inr tt, st') ∧
            batch_metrics st' !! MultiMetric.key_of self arg = Some v)
  ∧
  (∀ (st : RunState) (ikey okey : string) (params : kwargs)
     (targets outputs : pyval),
     output st !! okey = Some outputs →
     input st !! ikey = Some targets →
     let self := MultiMetric.mk "p" (λ _ _ _ _, inr (PList [PInt 1; PInt 2]))
                                [LStr "a"; LStr "a"] ikey okey params in
     ∃ st', MultiMetric.on_batch_end self st = (inr tt, st') ∧
            batch_metrics st' !! "p_a" = Some (PInt 2)).
Proof.
  split.
  - intros self st targets outputs metrics ms vs i j arg v
      Ho Hi Hm Hit Hlen Hvs Hij Hargi Hargj Hv Hlater.
    destruct (MultiMetric_on_batch_end_positions self st targets outputs
                metrics ms vs Ho Hi Hm Hit)
      as (st' & Hrun & _ & _ & Hlast & _).
    { by rewrite <-Hlen, firstn_all. }
    exists st'. split; [done|]. apply (Hlast j arg v Hargj Hv).
    intros j' arg' Hlt _. by apply Hlater.
  - intros st ikey okey params targets outputs Ho Hi self.
    eexists. split.
    + by apply (MultiMetric_on_batch_end_ok self st targets outputs
                  (PList [PInt 1; PInt 2]) [PInt 1; PInt 2] [PInt 1; PInt 2]);
        [..|repeat constructor].
    + apply lookup_insert_eq.
Qed.

Lemma MultiMetricCallback_duplicate_labels_last_write_wins_witness :
  output batch0 !! "logits" = Some (PList [PFloat (9 # 10); PFloat (1 # 5)]) ∧
  input batch0 !! "targets" = Some (PList [PInt 1; PInt 0]) ∧
  ∃ st',
    MultiMetric.on_batch_end
      (p_callback [LStr "a"; LStr "a"] [PInt 1; PInt 2]) batch0
    = (inr tt, st') ∧
    batch_metrics st' !! "p_a" = Some (PInt 2).
Proof.
  split; [reflexivity|]. split; [reflexivity|].
  apply (proj2 MultiMetricCallback_duplicate_labels_last_write_wins batch0
           "targets" "logits" [] (PList [PInt 1; PInt 0])
           (PList [PFloat (9 # 10); PFloat (1 # 5)])); reflexivity.
Defined.

(** Against claim C5: a metric function that returns one result for two
    labels does not make [on_batch_end] raise. *)
Lemma MultiMetricCallback_length_mismatch_is_not_raised :
  ¬ (∀ (self : MultiMetric.t) (st : RunState)
       (targets outputs metrics : pyval) (ms : list pyval),
       output st !! MultiMetric.output_key self = Some outputs →
       input st !! MultiMetric.input_key self = Some targets →
       MultiMetric.metric_fn self targets outputs (MultiMetric.list_args self)
         (MultiMetric.metric_params self) = inr metrics →
       py_iter metrics = inr ms →
       length ms ≠ length (MultiMetric.list_args self) →
       ∃ e st', MultiMetric.on_batch_end self st = (inl e, st')).
Proof.
  intros Hclaim.
  destruct (Hclaim (p_callback [LStr "a"; LStr "b"] [PInt 1]) batch0
              (PList [PInt 1; PInt 0]) (PList [PFloat (9 # 10); PFloat (1 # 5)])
              (PList [PInt 1]) [PInt 1])
    as (e & st' & Hrun); try reflexivity; [simpl; lia|].
  rewrite (MultiMetric_on_batch_end_ok _ batch0
             (PList [PInt 1; PInt 0]) (PList [PFloat (9 # 10); PFloat (1 # 5)])
             (PList [PInt 1]) [PInt 1] [PInt 1]) in Hrun;
    [discriminate|reflexivity..|repeat constructor].
Qed.

(** claim C5, amended: when the metric function returns a sequence whose
    length is not that of [list_args], [on_batch_end] raises nothing on that
    account; labels and results are paired by position as far as the shorter
    of the two goes, the values of these pairs are stored as for equal
    lengths, and what is beyond is ignored. *)
Theorem MultiMetricCallback_length_mismatch_truncates (self : MultiMetric.t)
    (st : RunState) (targets outputs metrics : pyval) (ms vs : list pyval) :
  output st !! MultiMetric.output_key self = Some outputs →
  input st !! MultiMetric.input_key self = Some targets →
  MultiMetric.metric_fn self targets outputs (MultiMetric.list_args self)
    (MultiMetric.metric_params self) = inr metrics →
  py_iter metrics = inr ms →
  length ms ≠ length (MultiMetric.list_args self) →
  Forall2 (λ m v, get_val_from_metric m = inr v) (take (length (MultiMetric.list_args self) `min` length ms) ms) vs →
  ∃ st', MultiMetric.on_batch_end self st = (inr tt, st') ∧
    (∀ i arg v,
       MultiMetric.list_args self !! i = Some arg → vs !! i = Some v →
       (∀ j arg', i < j → j < length (MultiMetric.list_args self) `min` length ms →
          MultiMetric.list_args self !! j = Some arg' →
          MultiMetric.key_of self arg' ≠ MultiMetric.key_of self arg) →
       batch_metrics st' !! MultiMetric.key_of self arg = Some v) ∧
    (∀ k,
       (∀ j arg, j < length (MultiMetric.list_args self) `min` length ms → MultiMetric.list_args self !! j = Some arg →
          MultiMetric.key_of self arg ≠ k) →
       batch_metrics st' !! k = batch_metrics st !! k).
Proof.
  set (n := length (MultiMetric.list_args self) `min` length ms).
  intros Ho Hi Hm Hit _ Hvs.
  destruct (MultiMetric_on_batch_end_positions self st targets outputs
              metrics ms vs Ho Hi Hm Hit)
    as (st' & Hrun & _ & _ & Hlast & Hother).
  { replace (take (length (MultiMetric.list_args self)) ms) with (take n ms);
      [done|].
    unfold n. destruct (Nat.min_spec (length (MultiMetric.list_args self))
                          (length ms)) as [[Hlt ->]|[Hle ->]]; [done|].
    by rewrite !take_ge by lia. }
  exists st'. split; [done|]. split.
  - intros i arg v Harg Hv Hlater. apply (Hlast i arg v Harg Hv).
    intros j arg' Hlt Hlen Harg'. apply (Hlater j); [done| |done].
    apply lookup_lt_Some in Harg'. unfold n. lia.
  - intros k Hne. apply Hother. intros j arg Hlen Harg.
    apply (Hne j); [|done]. apply lookup_lt_Some in Harg. unfold n. lia.
Qed.

Lemma MultiMetricCallback_length_mismatch_truncates_witness :
  output batch0 !! "logits" = Some (PList [PFloat (9 # 10); PFloat (1 # 5)]) ∧
  input batch0 !! "targets" = Some (PList [PInt 1; PInt 0]) ∧
  length [PInt 1] ≠ length [LStr "a"; LStr "b"] ∧
  ∃ st',
    MultiMetric.on_batch_end (p_callback [LStr "a"; LStr "b"] [PInt 1]) batch0
    = (inr tt, st') ∧
    batch_metrics st' !! "p_a" = Some (PInt 1) ∧
    batch_metrics st' !! "p_b" = None.
Proof.
  split; [reflexivity|]. split; [reflexivity|]. split; [simpl; lia|].
  destruct (MultiMetricCallback_length_mismatch_truncates
              (p_callback [LStr "a"; LStr "b"] [PInt 1]) batch0
              (PList [PInt 1; PInt 0]) (PList [PFloat (9 # 10); PFloat (1 # 5)])
              (PList [PInt 1]) [PInt 1] [PInt 1])
    as (st' & Hrun & Hlast & Hother);
    [reflexivity..|simpl; lia|repeat constructor|].
  exists st'. split; [exact Hrun|]. split.
  - apply (Hlast 0 (LStr "a") (PInt 1)); [reflexivity..|].
    simpl. intros j arg' Hj Hn. lia.
  - rewrite (Hother "p_b"); [reflexivity|].
    simpl. intros j arg Hj Harg. destruct j as [|j]; [|lia].
    injection Harg as <-. discriminate.
Defined.

(** claim C10: with an empty [list_args] and both keys present,
    [on_batch_end] still calls the metric function, so that it raises what
    the function raises, or [TypeError] when the result cannot be iterated,
    and returns otherwise; in each case it stores nothing and the state is
    as it was. *)
Theorem MultiMetricCallback_on_batch_end_no_labels (self : MultiMetric.t)
    (st : RunState) (targets outputs : pyval) :
  MultiMetric.list_args self = [] →
  output st !! MultiMetric.output_key self = Some outputs →
  input st !! MultiMetric.input_key self = Some targets →
  MultiMetric.on_batch_end self st
  = (match MultiMetric.metric_fn self targets outputs []
             (MultiMetric.metric_params self) with
     | inl e => inl e
     | inr metrics =>
         match py_iter metrics with
         | inl e => inl e
         | inr _ => inr tt
         end
     end, st).
Proof.
  intros Hnil Ho Hi. rewrite MultiMetric_on_batch_end_effect.
  unfold MultiMetric_effect. rewrite Ho, Hi, Hnil.
  destruct (MultiMetric.metric_fn _ _ _ _ _) as [e|metrics]; simpl;
    [by rewrite set_batch_metrics_nothing|].
  destruct (py_iter metrics) as [e|its]; simpl;
    by rewrite set_batch_metrics_nothing.
Qed.

Lemma MultiMetricCallback_on_batch_end_no_labels_witness :
  MultiMetric.list_args (p_callback [] [PInt 1; PInt 2]) = [] ∧
  output batch0 !! "logits" = Some (PList [PFloat (9 # 10); PFloat (1 # 5)]) ∧
  input batch0 !! "targets" = Some (PList [PInt 1; PInt 0]) ∧
  MultiMetric.on_batch_end (p_callback [] [PInt 1; PInt 2]) batch0
  = (inr tt, batch0).
Proof.
  split; [reflexivity|]. split; [reflexivity|]. split; [reflexivity|].
  apply (MultiMetricCallback_on_batch_end_no_labels
           (p_callback [] [PInt 1; PInt 2]) batch0
           (PList [PInt 1; PInt 0]) (PList [PFloat (9 # 10); PFloat (1 # 5)]));
    reflexivity.
Defined.

(** ** What the metric callbacks leave alone *)

(** The keys the loop stores under are composed from the labels it pairs. *)
Lemma loop_effect_keys (key : label → string) (ps : list (label * pyval))
    (j : nat) (k : string) (v : pyval) :
  (loop_effect key ps).2 !! j = Some (k, v) →
  ∃ arg metric, ps !! j = Some (arg, metric) ∧ k = key arg.
Proof.
  revert j. induction ps as [|[arg metric] ps IH]; intros j Hj; [done|].
  simpl in Hj. destruct (get_val_from_metric metric) as [e|val]; [done|].
  destruct j as [|j]; simpl in Hj.
  - injection Hj as <- <-. by exists arg, metric.
  - by apply IH.
Qed.

Lemma Metric_on_batch_end_frame (self : Metric.t) (st : RunState) :
  let st' := (Metric.on_batch_end self st).2 in
  input st' = input st ∧ output st' = output st ∧
  ∀ k, k ≠ Metric.prefix self →
       batch_metrics st' !! k = batch_metrics st !! k.
Proof.
  rewrite Metric_on_batch_end_effect. simpl. repeat split.
  intros k Hk. apply apply_writes_lookup_other. intros j k' v' Hj.
  unfold Metric_effect in Hj.
  repeat (case_match; simpl in Hj; try done).
  destruct j; [|done]. by injection Hj as <- <-.
Qed.

Lemma MultiMetric_on_batch_end_frame (self : MultiMetric.t) (st : RunState) :
  let st' := (MultiMetric.on_batch_end self st).2 in
  input st' = input st ∧ output st' = output st ∧
  ∀ k, (∀ arg, arg ∈ MultiMetric.list_args self →
               MultiMetric.key_of self arg ≠ k) →
       batch_metrics st' !! k = batch_metrics st !! k.
Proof.
  rewrite MultiMetric_on_batch_end_effect. simpl. repeat split.
  intros k Hk. apply apply_writes_lookup_other. intros j k' v' Hj.
  unfold MultiMetric_effect in Hj.
  repeat (case_match; simpl in Hj; try done).
  apply loop_effect_keys in Hj as (arg & metric & Hps & ->).
  apply Hk. apply lookup_zip_with_Some in Hps as (? & ? & [= <- <-] & Harg & _).
  by eapply list_elem_of_lookup_2.
Qed.

(** claim C9: a call of [on_batch_end] of a metric callback that returns
    leaves [state.input] and [state.output] as they were and changes no
    entry of [state.batch_metrics] but those under its own keys: the prefix
    for [MetricCallback], the keys composed from the labels for
    [MultiMetricCallback]. *)
Theorem metric_callbacks_write_their_own_keys_only :
  (∀ (self : Metric.t) (st st' : RunState),
     Metric.on_batch_end self st = (inr tt, st') →
     input st' = input st ∧ output st' = output st ∧
     ∀ k, k ≠ Metric.prefix self →
          batch_metrics st' !! k = batch_metrics st !! k)
  ∧
  (∀ (self : MultiMetric.t) (st st' : RunState),
     MultiMetric.on_batch_end self st = (inr tt, st') →
     input st' = input st ∧ output st' = output st ∧
     ∀ k, (∀ arg, arg ∈ MultiMetric.list_args self →
                  MultiMetric.key_of self arg ≠ k) →
          batch_metrics st' !! k = batch_metrics st !! k).
Proof.
  split; intros self st st' Hrun.
  - pose proof (Metric_on_batch_end_frame self st) as H.
    by rewrite Hrun in H.
  - pose proof (MultiMetric_on_batch_end_frame self st) as H.
    by rewrite Hrun in H.
Qed.

Lemma metric_callbacks_write_their_own_keys_only_witness :
  ∃ st',
    MultiMetric.on_batch_end
      (p_callback [LStr "a"; LStr "b"] [PInt 1; PInt 2]) batch0
    = (inr tt, st') ∧
    input st' = input batch0 ∧ output st' = output batch0 ∧
    batch_metrics st' !! "acc" = Some (PFloat (1 # 2)).
Proof.
  eexists. split; [reflexivity|].
  destruct (proj2 metric_callbacks_write_their_own_keys_only
              (p_callback [LStr "a"; LStr "b"] [PInt 1; PInt 2]) batch0 _
              eq_refl) as (Hin & Hout & Hother).
  split; [exact Hin|]. split; [exact Hout|].
  rewrite (Hother "acc"); [reflexivity|].
  intros arg Harg.
  apply list_elem_of_In in Harg. simpl in Harg.
  destruct Harg as [<-|[<-|[]]]; discriminate.
Defined.

(** ** Calling twice *)

(** claim C8: how [on_batch_end] of a metric callback ends and what it
    stores depend only on [state.input] and [state.output]: for given
    contents of these there are one outcome and one map of stored entries
    such that every call from a state with these contents, whatever its
    metrics are and however many calls came before, ends with that outcome
    and lays that map over the metrics. *)
Theorem metric_callbacks_same_delta_each_time :
  (∀ (self : Metric.t) (inp out : gmap string pyval),
     ∃ (r : result unit) (delta : gmap string pyval),
       ∀ bm : gmap string pyval,
         Metric.on_batch_end self (mkRunState inp out bm)
         = (r, mkRunState inp out (delta ∪ bm)))
  ∧
  (∀ (self : MultiMetric.t) (inp out : gmap string pyval),
     ∃ (r : result unit) (delta : gmap string pyval),
       ∀ bm : gmap string pyval,
         MultiMetric.on_batch_end self (mkRunState inp out bm)
         = (r, mkRunState inp out (delta ∪ bm))).
Proof.
  split; intros self inp out.
  - exists (Metric_effect self inp out).1,
           (apply_writes (Metric_effect self inp out).2 ∅).
    intros bm. rewrite Metric_on_batch_end_effect. simpl.
    unfold set_batch_metrics. simpl. by rewrite <-apply_writes_union.
  - exists (MultiMetric_effect self inp out).1,
           (apply_writes (MultiMetric_effect self inp out).2 ∅).
    intros bm. rewrite MultiMetric_on_batch_end_effect. simpl.
    unfold set_batch_metrics. simpl. by rewrite <-apply_writes_union.
Qed.

(** Two calls in a row leave what one call leaves. *)
Lemma apply_writes_twice (ws : list (string * pyval)) (bm : gmap string pyval) :
  apply_writes ws (apply_writes ws bm) = apply_writes ws bm.
Proof.
  rewrite (apply_writes_union ws (apply_writes ws bm)).
  rewrite (apply_writes_union ws bm).
  by rewrite (assoc_L (∪)), (idemp_L (∪)).
Qed.

Lemma Metric_on_batch_end_twice (self : Metric.t) (st : RunState) :
  (Metric.on_batch_end self;; Metric.on_batch_end self) st
  = Metric.on_batch_end self st.
Proof.
  unfold bind. rewrite (Metric_on_batch_end_effect self st). simpl.
  destruct (Metric_effect self (input st) (output st)) as [[e|[]] ws] eqn:E;
    simpl; [done|].
  rewrite Metric_on_batch_end_effect. simpl. rewrite E. simpl.
  unfold set_batch_metrics. simpl. by rewrite apply_writes_twice.
Qed.

Lemma MultiMetric_on_batch_end_twice (self : MultiMetric.t) (st : RunState) :
  (MultiMetric.on_batch_end self;; MultiMetric.on_batch_end self) st
  = MultiMetric.on_batch_end self st.
Proof.
  unfold bind. rewrite (MultiMetric_on_batch_end_effect self st). simpl.
  destruct (MultiMetric_effect self (input st) (output st))
    as [[e|[]] ws] eqn:E; simpl; [done|].
  rewrite MultiMetric_on_batch_end_effect. simpl. rewrite E. simpl.
  unfold set_batch_metrics. simpl. by rewrite apply_writes_twice.
Qed.

(** ** The dispatcher at work *)

Lemma CallbackCompose_dispatch_in_order_witness :
  length [["a"]; ["a"; "b"]; ["a"; "b"; "c"]]
  = length (callbacks (mkCallbackCompose
              [("first", logger "a"); ("second", logger "b");
               ("third", logger "c")])) ∧
  Compose.call OnBatchEnd
    (mkCallbackCompose
       [("first", logger "a"); ("second", logger "b"); ("third", logger "c")])
    []
  = (inr tt, ["a"; "b"; "c"]).
Proof.
  split; [reflexivity|].
  apply (CallbackCompose_dispatch_in_order OnBatchEnd
           (mkCallbackCompose
              [("first", logger "a"); ("second", logger "b");
               ("third", logger "c")])
           [] [["a"]; ["a"; "b"]; ["a"; "b"; "c"]]);
    [reflexivity|].
  intros i key value Hi.
  destruct i as [|[|[|i]]]; simpl in Hi; [..|discriminate];
    injection Hi as <- <-.
  - exists [], ["a"]. repeat split.
  - exists ["a"], ["a"; "b"]. repeat split.
  - exists ["a"; "b"], ["a"; "b"; "c"]. repeat split.
Defined.

(** Callbacks that log their names leave, at every hook, the names in the
    order of the collection after what the log held. *)
Lemma CallbackCompose_log_order (h : hook) (names : list string)
    (log : list string) :
  Compose.call h (mkCallbackCompose ((λ n, (n, logger n)) <$> names)) log
  = (inr tt, (log ++ names)%list).
Proof.
  rewrite Compose_call_for_each. simpl. revert log.
  induction names as [|n names IH]; intros log; simpl.
  - by rewrite (right_id_L [] (++)%list).
  - unfold bind. replace (call h (logger n) log)
      with (@inr exn unit tt, (log ++ [n])%list) by by destruct h.
    by rewrite IH, <-(assoc_L (++)%list).
Qed.

(** A callback sees what the callbacks before it stored, and not what the
    ones after it will store: after the metric callback, [seen_callback]
    finds ["acc"]; before it, it does not, and its exception ends the
    dispatch before the metric callback runs. *)
Example dispatch_metric_then_seen :
  Compose.call OnBatchEnd
    (mkCallbackCompose [("metric", Metric.callback acc_callback);
                        ("seen", seen_callback)]) fresh_batch
  = (inr tt,
     set_batch_metrics
       (λ _, <["seen" := PFloat (3 # 4)]> {[ "acc" := PFloat (3 # 4) ]})
       fresh_batch).
Proof. reflexivity. Qed.

Example dispatch_seen_then_metric :
  Compose.call OnBatchEnd
    (mkCallbackCompose [("seen", seen_callback);
                        ("metric", Metric.callback acc_callback)]) fresh_batch
  = (inl (KeyError "acc"), fresh_batch).
Proof. reflexivity. Qed.


(** * Further properties *)

(** ** The dispatcher *)

(** A dispatch over a collection made of two parts is the dispatch over the
    first part followed, unless it raised, by the dispatch over the second
    on the state the first left. *)
Theorem CallbackCompose_dispatch_app {S} (h : hook)
    (cs1 cs2 : list (string * Callback S)) (s : S) :
  Compose.call h (mkCallbackCompose (cs1 ++ cs2)) s
  = (Compose.call h (mkCallbackCompose cs1);;
     Compose.call h (mkCallbackCompose cs2)) s.
Proof.
  rewrite !Compose_call_for_each. simpl. rewrite for_each_app. unfold bind.
  by destruct (for_each cs1 _ s) as [[e|[]] s1].
Qed.

Lemma CallbackCompose_dispatch_raises_witness :
  Compose.call OnBatchEnd
    (mkCallbackCompose
       [("p", MultiMetric.callback (p_callback [LStr "a"] [PInt 1]))])
    fresh_batch
  = (inr tt, set_batch_metrics (λ _, {[ "p_a" := PInt 1 ]}) fresh_batch) ∧
  call OnBatchEnd seen_callback
    (set_batch_metrics (λ _, {[ "p_a" := PInt 1 ]}) fresh_batch)
  = (inl (KeyError "acc"),
     set_batch_metrics (λ _, {[ "p_a" := PInt 1 ]}) fresh_batch) ∧
  Compose.call OnBatchEnd
    (mkCallbackCompose
       ([("p", MultiMetric.callback (p_callback [LStr "a"] [PInt 1]))]
        ++ ("seen", seen_callback)
           :: [("metric", Metric.callback acc_callback)]))
    fresh_batch
  = (inl (KeyError "acc"),
     set_batch_metrics (λ _, {[ "p_a" := PInt 1 ]}) fresh_batch).
Proof.
  split; [reflexivity|]. split; [reflexivity|].
  apply (CallbackCompose_dispatch_raises OnBatchEnd
           [("p", MultiMetric.callback (p_callback [LStr "a"] [PInt 1]))]
           [("metric", Metric.callback acc_callback)] "seen" seen_callback
           fresh_batch
           (set_batch_metrics (λ _, {[ "p_a" := PInt 1 ]}) fresh_batch));
    reflexivity.
Defined.



(** A relation between the state before and the state after that holds
    when nothing happens, composes, and is kept by the hook of every
    callback of the collection, is kept by the dispatch, whether it returns
    or raises. *)
Theorem CallbackCompose_dispatch_preserves {S} (R : S → S → Prop) (h : hook)
    (D : CallbackCompose S) :
  (∀ s, R s s) →
  (∀ s1 s2 s3, R s1 s2 → R s2 s3 → R s1 s3) →
  (∀ key value s, (key, value) ∈ callbacks D → R s (call h value s).2) →
  ∀ s, R s (Compose.call h D s).2.
Proof.
  intros Hrefl Htrans. rewrite Compose_call_for_each.
  destruct D as [cs]. simpl.
  induction cs as [|[key value] cs IH]; intros Hstep s; simpl; [done|].
  unfold bind. pose proof (Hstep key value s (list_elem_of_here _ _)) as H1.
  destruct (call h value s) as [[e|[]] s1]; simpl in *; [done|].
  apply (Htrans _ s1); [done|]. apply IH.
  intros k v s' Hin. apply (Hstep k v). by apply list_elem_of_further.
Qed.

Lemma CallbackCompose_dispatch_preserves_witness :
  (length ["z"]
   ≤ length (Compose.call OnLoaderStart
               (mkCallbackCompose [("first", logger "a"); ("second", logger "b")])
               ["z"]).2)%nat.
Proof.
  apply (CallbackCompose_dispatch_preserves
           (λ log log' : list string, (length log ≤ length log')%nat)
           OnLoaderStart
           (mkCallbackCompose [("first", logger "a"); ("second", logger "b")])).
  - intros s. lia.
  - intros s1 s2 s3 H12 H23. lia.
  - intros key value s Hin. apply list_elem_of_In in Hin. simpl in Hin.
    destruct Hin as [[= <- <-]|[[= <- <-]|[]]]; simpl;
      rewrite length_app; simpl; lia.
Defined.

(** ** How [on_batch_end] fails *)

(** [MetricCallback.on_batch_end] stores last: whenever it raises, whatever
    the exception, the state is as it was. *)
Theorem MetricCallback_on_batch_end_raise_keeps_state (self : Metric.t)
    (st st' : RunState) (e : exn) :
  Metric.on_batch_end self st = (inl e, st') → st' = st.
Proof.
  rewrite Metric_on_batch_end_effect. unfold Metric_effect.
  repeat case_match; simpl; intros [= <- <-] || intros [=];
    apply set_batch_metrics_nothing.
Qed.

Lemma MetricCallback_on_batch_end_raise_keeps_state_witness :
  Metric.on_batch_end acc_callback empty_batch
  = (inl (KeyError "logits"), empty_batch) ∧ empty_batch = empty_batch.
Proof.
  split; [reflexivity|].
  apply (MetricCallback_on_batch_end_raise_keeps_state acc_callback
           empty_batch empty_batch (KeyError "logits")).
  reflexivity.
Defined.

(** Both metric callbacks read [state.output] before [state.input]: without
    the output key the [KeyError] names the output key, also when the input
    key is missing as well; the input key is named only when the output key
    is there.  The metric function plays no part in either case. *)
Theorem metric_callbacks_look_up_output_first :
  (∀ (self : Metric.t) (st : RunState),
     (output st !! Metric.output_key self = None →
      Metric.on_batch_end self st
      = (inl (KeyError (Metric.output_key self)), st)) ∧
     (is_Some (output st !! Metric.output_key self) →
      input st !! Metric.input_key self = None →
      Metric.on_batch_end self st
      = (inl (KeyError (Metric.input_key self)), st)))
  ∧
  (∀ (self : MultiMetric.t) (st : RunState),
     (output st !! MultiMetric.output_key self = None →
      MultiMetric.on_batch_end self st
      = (inl (KeyError (MultiMetric.output_key self)), st)) ∧
     (is_Some (output st !! MultiMetric.output_key self) →
      input st !! MultiMetric.input_key self = None →
      MultiMetric.on_batch_end self st
      = (inl (KeyError (MultiMetric.input_key self)), st))).
Proof.
  split; intros self st; split.
  - intros Ho. rewrite Metric_on_batch_end_effect. unfold Metric_effect.
    rewrite Ho. simpl. by rewrite set_batch_metrics_nothing.
  - intros [outputs Ho] Hi. rewrite Metric_on_batch_end_effect.
    unfold Metric_effect. rewrite Ho, Hi. simpl.
    by rewrite set_batch_metrics_nothing.
  - intros Ho. rewrite MultiMetric_on_batch_end_effect.
    unfold MultiMetric_effect. rewrite Ho. simpl.
    by rewrite set_batch_metrics_nothing.
  - intros [outputs Ho] Hi. rewrite MultiMetric_on_batch_end_effect.
    unfold MultiMetric_effect. rewrite Ho, Hi. simpl.
    by rewrite set_batch_metrics_nothing.
Qed.

Lemma metric_callbacks_look_up_output_first_witness :
  output empty_batch !! "logits" = None ∧
  input empty_batch !! "targets" = None ∧
  MultiMetric.on_batch_end (p_callback [LStr "a"] [PInt 1]) empty_batch
  = (inl (KeyError "logits"), empty_batch).
Proof.
  split; [reflexivity|]. split; [reflexivity|].
  apply (proj1 (proj2 metric_callbacks_look_up_output_first
                  (p_callback [LStr "a"] [PInt 1]) empty_batch)).
  reflexivity.
Defined.

(** What the metric function raises leaves [on_batch_end] as it is, and
    the state is as it was. *)
Theorem metric_callbacks_pass_on_metric_fn_errors :
  (∀ (self : Metric.t) (st : RunState) (targets outputs : pyval) (e : exn),
     output st !! Metric.output_key self = Some outputs →
     input st !! Metric.input_key self = Some targets →
     Metric.metric_fn self targets outputs (Metric.metric_params self)
       = inl e →
     Metric.on_batch_end self st = (inl e, st))
  ∧
  (∀ (self : MultiMetric.t) (st : RunState) (targets outputs : pyval)
     (e : exn),
     output st !! MultiMetric.output_key self = Some outputs →
     input st !! MultiMetric.input_key self = Some targets →
     MultiMetric.metric_fn self targets outputs (MultiMetric.list_args self)
       (MultiMetric.metric_params self) = inl e →
     MultiMetric.on_batch_end self st = (inl e, st)).
Proof.
  split; intros self st targets outputs e Ho Hi Hm.
  - rewrite Metric_on_batch_end_effect. unfold Metric_effect.
    rewrite Ho, Hi, Hm. simpl. by rewrite set_batch_metrics_nothing.
  - rewrite MultiMetric_on_batch_end_effect. unfold MultiMetric_effect.
    rewrite Ho, Hi, Hm. simpl. by rewrite set_batch_metrics_nothing.
Qed.

Lemma metric_callbacks_pass_on_metric_fn_errors_witness :
  output batch0 !! "logits" = Some (PList [PFloat (9 # 10); PFloat (1 # 5)]) ∧
  input batch0 !! "targets" = Some (PList [PInt 1; PInt 0]) ∧
  Metric.on_batch_end
    (Metric.init "acc" (λ _ _ _, inl (MetricFnError "shape")) []) batch0
  = (inl (MetricFnError "shape"), batch0).
Proof.
  split; [reflexivity|]. split; [reflexivity|].
  apply (proj1 metric_callbacks_pass_on_metric_fn_errors
           (Metric.init "acc" (λ _ _ _, inl (MetricFnError "shape")) [])
           batch0 (PList [PInt 1; PInt 0])
           (PList [PFloat (9 # 10); PFloat (1 # 5)]));
    reflexivity.
Defined.

(** A metric function that returns one number where a sequence is due, as
    the function of a [MetricCallback] would, makes
    [MultiMetricCallback.on_batch_end] raise [TypeError] from [zip], even
    though the number could be extracted; nothing is stored. *)
Theorem MultiMetricCallback_on_batch_end_scalar_result (self : MultiMetric.t)
    (st : RunState) (targets outputs metric val : pyval) :
  output st !! MultiMetric.output_key self = Some outputs →
  input st !! MultiMetric.input_key self = Some targets →
  MultiMetric.metric_fn self targets outputs (MultiMetric.list_args self)
    (MultiMetric.metric_params self) = inr metric →
  get_val_from_metric metric = inr val →
  MultiMetric.on_batch_end self st = (inl TypeError, st).
Proof.
  intros Ho Hi Hm Hv. rewrite MultiMetric_on_batch_end_effect.
  unfold MultiMetric_effect. rewrite Ho, Hi, Hm.
  destruct metric; try discriminate Hv; simpl;
    by rewrite set_batch_metrics_nothing.
Qed.

Lemma MultiMetricCallback_on_batch_end_scalar_result_witness :
  output batch0 !! "logits" = Some (PList [PFloat (9 # 10); PFloat (1 # 5)]) ∧
  input batch0 !! "targets" = Some (PList [PInt 1; PInt 0]) ∧
  get_val_from_metric (PFloat (3 # 4)) = inr (PFloat (3 # 4)) ∧
  MultiMetric.on_batch_end
    (MultiMetric.init "p" (λ _ _ _ _, inr (PFloat (3 # 4))) [LStr "a"] [])
    batch0
  = (inl TypeError, batch0).
Proof.
  split; [reflexivity|]. split; [reflexivity|]. split; [reflexivity|].
  apply (MultiMetricCallback_on_batch_end_scalar_result
           (MultiMetric.init "p" (λ _ _ _ _, inr (PFloat (3 # 4)))
                             [LStr "a"] [])
           batch0 (PList [PInt 1; PInt 0])
           (PList [PFloat (9 # 10); PFloat (1 # 5)])
           (PFloat (3 # 4)) (PFloat (3 # 4)));
    reflexivity.
Defined.

(** The loop over pairs whose first [i] results are accepted and whose
    next one is rejected. *)
Lemma loop_effect_rejected (key : label → string) (args : list label)
    (ms vs : list pyval) (i : nat) (m : pyval) (e : exn) :
  (i < length args)%nat →
  ms !! i = Some m → get_val_from_metric m = inl e →
  Forall2 (λ m v, get_val_from_metric m = inr v) (take i ms) vs →
  loop_effect key (zip args ms) = (inl e, zip (key <$> args) vs).
Proof.
  revert ms vs i. induction args as [|arg args IH]; intros ms vs i Hlt Hm He Hvs;
    simpl in Hlt; [lia|].
  destruct ms as [|m0 ms]; [done|]. destruct i as [|i]; simpl in *.
  - injection Hm as ->. inversion Hvs; subst. by rewrite He.
  - inversion Hvs as [|? v ? vs' Hv Hvs']; subst. simpl. rewrite Hv.
    by rewrite (IH ms vs' i); [|lia|..].
Qed.

(** [MultiMetricCallback.on_batch_end] stores as it goes: when the
    extraction rejects the result of some label, the exception leaves the
    loop there, the values of the labels before it are stored and stay, and
    nothing is stored for that label and the ones after it. *)
Theorem MultiMetricCallback_on_batch_end_rejected_result
    (self : MultiMetric.t) (st : RunState) (targets outputs metrics : pyval)
    (ms vs : list pyval) (i : nat) (m : pyval) (e : exn) :
  output st !! MultiMetric.output_key self = Some outputs →
  input st !! MultiMetric.input_key self = Some targets →
  MultiMetric.metric_fn self targets outputs (MultiMetric.list_args self)
    (MultiMetric.metric_params self) = inr metrics →
  py_iter metrics = inr ms →
  (i < length (MultiMetric.list_args self))%nat →
  ms !! i = Some m → get_val_from_metric m = inl e →
  Forall2 (λ m v, get_val_from_metric m = inr v) (take i ms) vs →
  MultiMetric.on_batch_end self st
  = (inl e,
     set_batch_metrics
       (apply_writes
          (zip (MultiMetric.key_of self <$> take i (MultiMetric.list_args self))
               vs))
       st).
Proof.
  intros Ho Hi Hm Hit Hlt Hmi He Hvs. rewrite MultiMetric_on_batch_end_effect.
  unfold MultiMetric_effect. rewrite Ho, Hi, Hm, Hit.
  rewrite (loop_effect_rejected _ _ ms vs i m e Hlt Hmi He Hvs). simpl.
  do 3 f_equal. apply Forall2_length in Hvs.
  assert (length vs = i) as <-.
  { rewrite <-Hvs, length_take. apply lookup_lt_Some in Hmi. lia. }
  rewrite fmap_take. symmetry. apply zip_with_take_l.
Qed.

Lemma MultiMetricCallback_on_batch_end_rejected_result_witness :
  output batch0 !! "logits" = Some (PList [PFloat (9 # 10); PFloat (1 # 5)]) ∧
  input batch0 !! "targets" = Some (PList [PInt 1; PInt 0]) ∧
  get_val_from_metric PNone = inl UnsupportedMetricType ∧
  MultiMetric.on_batch_end
    (p_callback [LStr "a"; LStr "b"; LStr "c"] [PInt 1; PNone; PInt 3]) batch0
  = (inl UnsupportedMetricType,
     set_batch_metrics (insert "p_a" (PInt 1)) batch0).
Proof.
  split; [reflexivity|]. split; [reflexivity|]. split; [reflexivity|].
  apply (MultiMetricCallback_on_batch_end_rejected_result
           (p_callback [LStr "a"; LStr "b"; LStr "c"] [PInt 1; PNone; PInt 3])
           batch0 (PList [PInt 1; PInt 0])
           (PList [PFloat (9 # 10); PFloat (1 # 5)])
           (PList [PInt 1; PNone; PInt 3]) [PInt 1; PNone; PInt 3] [PInt 1]
           1 PNone UnsupportedMetricType);
    try reflexivity; [simpl; lia|repeat constructor].
Defined.

(** ** The two metric callbacks side by side *)

(** A [MultiMetricCallback] with one label, over a metric function that
    wraps the result of [metric_fn] in a one-element list, does in every
    case, exceptions included, what the [MetricCallback] over [metric_fn]
    with the composed key as its prefix does. *)
Theorem MultiMetricCallback_one_label_as_MetricCallback (prefix : string)
    (metric_fn : pyval → pyval → kwargs → result pyval) (arg : label)
    (input_key output_key : string) (metric_params : kwargs) (st : RunState) :
  MultiMetric.on_batch_end
    (MultiMetric.mk prefix
       (λ targets outputs _ params,
          match metric_fn targets outputs params with
          | inr metric => inr (PList [metric])
          | inl e => inl e
          end)
       [arg] input_key output_key metric_params) st
  = Metric.on_batch_end
      (Metric.mk (prefix +:+ "_" +:+ format arg) metric_fn
                 input_key output_key metric_params) st.
Proof.
  rewrite MultiMetric_on_batch_end_effect, Metric_on_batch_end_effect.
  unfold MultiMetric_effect, Metric_effect. simpl.
  destruct (output st !! output_key) as [outputs|]; [|done].
  destruct (input st !! input_key) as [targets|]; [|done].
  destruct (metric_fn targets outputs metric_params) as [e|metric]; [done|].
  simpl. by destruct (get_val_from_metric metric).
Qed.

(** ** Several metric callbacks in one dispatch *)



(** Two [MetricCallback]s with the same prefix: when both succeed on a
    state, the dispatch leaves what the later one alone would leave; the
    value of the earlier one is lost. *)
Theorem MetricCallback_same_prefix_later_wins (a b : Metric.t)
    (ka kb : string) (st sa sb : RunState) :
  Metric.prefix a = Metric.prefix b →
  Metric.on_batch_end a st = (inr tt, sa) →
  Metric.on_batch_end b st = (inr tt, sb) →
  Compose.call OnBatchEnd
    (mkCallbackCompose [(ka, Metric.callback a); (kb, Metric.callback b)]) st
  = (inr tt, sb).
Proof.
  intros Heq Ha Hb. simpl. unfold Compose.on_batch_end. simpl.
  unfold bind, ret. rewrite Ha.
  rewrite Metric_on_batch_end_effect in Ha, Hb.
  injection Ha as Hra <-. injection Hb as Hrb <-.
  rewrite !Metric_on_batch_end_effect. simpl. rewrite Hrb.
  f_equal. unfold set_batch_metrics. simpl. f_equal.
  unfold Metric_effect in *.
  repeat (case_match; simplify_eq/=); try done.
  rewrite Heq. by apply insert_insert_eq.
Qed.

Lemma MetricCallback_same_prefix_later_wins_witness :
  Metric.prefix acc_callback
  = Metric.prefix (Metric.init "acc" (λ _ _ _, inr (PInt 1)) []) ∧
  Compose.call OnBatchEnd
    (mkCallbackCompose
       [("x", Metric.callback acc_callback);
        ("y", Metric.callback (Metric.init "acc" (λ _ _ _, inr (PInt 1)) []))])
    batch0
  = (inr tt, set_batch_metrics (insert "acc" (PInt 1)) batch0).
Proof.
  split; [reflexivity|].
  apply (MetricCallback_same_prefix_later_wins acc_callback
           (Metric.init "acc" (λ _ _ _, inr (PInt 1)) [])
           "x" "y" batch0
           (set_batch_metrics (insert "acc" (PFloat (3 # 4))) batch0)
           (set_batch_metrics (insert "acc" (PInt 1)) batch0));
    reflexivity.
Defined.

(** ** Labels and keys *)

(** For one callback, labels that print differently compose different
    keys. *)
Lemma key_of_inj (self : MultiMetric.t) (arg arg' : label) :
  MultiMetric.key_of self arg = MultiMetric.key_of self arg' →
  format arg = format arg'.
Proof.
  unfold MultiMetric.key_of. intros Heq.
  by do 2 apply (inj (String.app _)) in Heq.
Qed.

(** With labels that print differently from one another, as many results as
    labels and results the extraction accepts, no store is overwritten:
    after [on_batch_end] every label finds the value of its own position
    under its key. *)
Theorem MultiMetricCallback_distinct_labels_all_kept (self : MultiMetric.t)
    (st : RunState) (targets outputs metrics : pyval) (ms vs : list pyval) :
  NoDup (format <$> MultiMetric.list_args self) →
  output st !! MultiMetric.output_key self = Some outputs →
  input st !! MultiMetric.input_key self = Some targets →
  MultiMetric.metric_fn self targets outputs (MultiMetric.list_args self)
    (MultiMetric.metric_params self) = inr metrics →
  py_iter metrics = inr ms →
  length ms = length (MultiMetric.list_args self) →
  Forall2 (λ m v, get_val_from_metric m = inr v) ms vs →
  ∃ st', MultiMetric.on_batch_end self st = (inr tt, st') ∧
    ∀ i arg v,
      MultiMetric.list_args self !! i = Some arg → vs !! i = Some v →
      batch_metrics st' !! MultiMetric.key_of self arg = Some v.
Proof.
  intros Hnodup Ho Hi Hm Hit Hlen Hvs.
  destruct (MultiMetric_on_batch_end_positions self st targets outputs
              metrics ms vs Ho Hi Hm Hit)
    as (st' & Hrun & _ & _ & Hlast & _).
  { by rewrite <-Hlen, firstn_all. }
  exists st'. split; [done|]. intros i arg v Harg Hv.
  apply (Hlast i arg v Harg Hv). intros j arg' Hlt _ Harg' Hkey.
  apply key_of_inj in Hkey.
  assert (i = j) as Hij; [|lia].
  apply (NoDup_lookup _ i j (format arg) Hnodup).
  - by rewrite list_lookup_fmap, Harg.
  - rewrite list_lookup_fmap, Harg'. simpl. by rewrite Hkey.
Qed.

Lemma MultiMetricCallback_distinct_labels_all_kept_witness :
  ∃ st',
    MultiMetric.on_batch_end
      (p_callback [LInt 1; LInt 3; LStr "all"]
                  [PTensor0 (1 # 2); PTensor0 (3 # 4); PInt 1]) batch0
    = (inr tt, st') ∧
    batch_metrics st' !! "p_1" = Some (PFloat (1 # 2)) ∧
    batch_metrics st' !! "p_3" = Some (PFloat (3 # 4)) ∧
    batch_metrics st' !! "p_all" = Some (PInt 1).
Proof.
  destruct (MultiMetricCallback_distinct_labels_all_kept
              (p_callback [LInt 1; LInt 3; LStr "all"]
                          [PTensor0 (1 # 2); PTensor0 (3 # 4); PInt 1])
              batch0 (PList [PInt 1; PInt 0])
              (PList [PFloat (9 # 10); PFloat (1 # 5)])
              (PList [PTensor0 (1 # 2); PTensor0 (3 # 4); PInt 1])
              [PTensor0 (1 # 2); PTensor0 (3 # 4); PInt 1]
              [PFloat (1 # 2); PFloat (3 # 4); PInt 1])
    as (st' & Hrun & Hkept);
    [exact (bool_decide_unpack
              (NoDup (format <$> [LInt 1; LInt 3; LStr "all"])) I)
    |reflexivity..
    |repeat constructor|].
  exists st'. split; [exact Hrun|].
  split; [|split].
  - apply (Hkept 0 (LInt 1)); reflexivity.
  - apply (Hkept 1 (LInt 3)); reflexivity.
  - apply (Hkept 2 (LStr "all")); reflexivity.
Defined.

(** ** What a metric callback never does *)

(** Neither metric callback removes a metric: a key of [batch_metrics]
    before [on_batch_end] is a key of it afterwards, whether the call
    returns or raises. *)
Theorem metric_callbacks_never_drop_a_metric :
  (∀ (self : Metric.t) (st : RunState) (k : string),
     is_Some (batch_metrics st !! k) →
     is_Some (batch_metrics (Metric.on_batch_end self st).2 !! k))
  ∧
  (∀ (self : MultiMetric.t) (st : RunState) (k : string),
     is_Some (batch_metrics st !! k) →
     is_Some (batch_metrics (MultiMetric.on_batch_end self st).2 !! k)).
Proof.
  split; intros self st k Hk.
  - rewrite Metric_on_batch_end_effect. simpl.
    rewrite apply_writes_union. apply lookup_union_is_Some. by right.
  - rewrite MultiMetric_on_batch_end_effect. simpl.
    rewrite apply_writes_union. apply lookup_union_is_Some. by right.
Qed.

Lemma metric_callbacks_never_drop_a_metric_witness :
  is_Some (batch_metrics batch0 !! "acc") ∧
  is_Some (batch_metrics
             (MultiMetric.on_batch_end
                (p_callback [LStr "a"; LStr "b"] [PInt 1; PNone]) batch0).2
           !! "acc").
Proof.
  split; [by eexists|].
  apply (proj2 metric_callbacks_never_drop_a_metric
           (p_callback [LStr "a"; LStr "b"] [PInt 1; PNone]) batch0 "acc").
  by eexists.
Defined.

(** ** Collections of the callbacks of the file *)

Lemma for_each_fmap {S A B} (f : A → B) (xs : list A) (body : B → M S unit) :
  for_each (f <$> xs) body = for_each xs (λ x, body (f x)).
Proof.
  induction xs as [|x xs IH]; [done|].
  rewrite fmap_cons. cbn [for_each]. by rewrite IH.
Qed.

(** One hook of one callback of the file: how it ends and what it stores
    depend on [input] and [output] alone. *)
Lemma builtin_call_summary (h : hook) (b : builtin)
    (inp out : gmap string pyval) :
  ∃ (r : result unit) (delta : gmap string pyval),
    ∀ bm : gmap string pyval,
      call h (builtin_callback b) (mkRunState inp out bm)
      = (r, mkRunState inp out (delta ∪ bm)).
Proof.
  assert (∃ (r : result unit) (delta : gmap string pyval),
            ∀ bm : gmap string pyval,
              @ret RunState unit tt (mkRunState inp out bm)
              = (r, mkRunState inp out (delta ∪ bm))) as Hret.
  { exists (inr tt), ∅. intros bm. by rewrite (left_id_L ∅ (∪)). }
  destruct b as [|self|self]; destruct h; try exact Hret; simpl.
  - exists (Metric_effect self inp out).1,
           (apply_writes (Metric_effect self inp out).2 ∅).
    intros bm. rewrite Metric_on_batch_end_effect. simpl.
    unfold set_batch_metrics. simpl. by rewrite <-apply_writes_union.
  - exists (MultiMetric_effect self inp out).1,
           (apply_writes (MultiMetric_effect self inp out).2 ∅).
    intros bm. rewrite MultiMetric_on_batch_end_effect. simpl.
    unfold set_batch_metrics. simpl. by rewrite <-apply_writes_union.
Qed.

Lemma builtin_loop_summary (h : hook) (bs : list (string * builtin))
    (inp out : gmap string pyval) :
  ∃ (r : result unit) (delta : gmap string pyval),
    ∀ bm : gmap string pyval,
      for_each bs (λ kb, call h (builtin_callback kb.2)) (mkRunState inp out bm)
      = (r, mkRunState inp out (delta ∪ bm)).
Proof.
  induction bs as [|[k b] bs (r2 & d2 & IH)]; simpl.
  - exists (inr tt), ∅. intros bm. unfold ret. by rewrite (left_id_L ∅ (∪)).
  - destruct (builtin_call_summary h b inp out) as (r1 & d1 & H1).
    destruct r1 as [e|[]].
    + exists (inl e), d1. intros bm. unfold bind. by rewrite H1.
    + exists r2, (d2 ∪ d1). intros bm. unfold bind. rewrite H1, IH.
      by rewrite (assoc_L (∪)).
Qed.

Lemma builtin_compose_for_each (h : hook) (bs : list (string * builtin)) :
  Compose.call h (builtin_compose bs)
  = for_each bs (λ kb, call h (builtin_callback kb.2)).
Proof.
  rewrite Compose_call_for_each. unfold builtin_compose. simpl.
  by rewrite for_each_fmap.
Qed.

(** A dispatch over callbacks of the three classes of the file, at any
    hook: for given contents of [input] and [output] there are one outcome
    and one map of entries such that the dispatch from any state with these
    contents ends with that outcome, leaves [input] and [output] as they
    were, and lays that map over the metrics. *)
Theorem builtin_dispatch_depends_on_input_output (h : hook)
    (bs : list (string * builtin)) (inp out : gmap string pyval) :
  ∃ (r : result unit) (delta : gmap string pyval),
    ∀ bm : gmap string pyval,
      Compose.call h (builtin_compose bs) (mkRunState inp out bm)
      = (r, mkRunState inp out (delta ∪ bm)).
Proof. rewrite builtin_compose_for_each. apply builtin_loop_summary. Qed.

(** Dispatching a hook twice in a row over such a collection leaves what
    dispatching it once leaves, with the same outcome. *)
Theorem builtin_dispatch_twice (h : hook) (bs : list (string * builtin))
    (st : RunState) :
  (Compose.call h (builtin_compose bs);; Compose.call h (builtin_compose bs)) st
  = Compose.call h (builtin_compose bs) st.
Proof.
  rewrite builtin_compose_for_each. destruct st as [inp out bm].
  destruct (builtin_loop_summary h bs inp out) as (r & d & H).
  unfold bind. rewrite H. destruct r as [e|[]]; [done|]. rewrite H.
  by rewrite (assoc_L (∪)), (idemp_L (∪)).
Qed.

(** The metric callbacks act at the end of a batch only: at each of the
    nine other hooks a dispatch over callbacks of the three classes returns
    and leaves the state as it was. *)
Theorem builtin_dispatch_other_hooks (h : hook) (bs : list (string * builtin))
    (st : RunState) :
  h ≠ OnBatchEnd →
  Compose.call h (builtin_compose bs) st = (inr tt, st).
Proof.
  intros Hh. rewrite builtin_compose_for_each.
  induction bs as [|[k b] bs IH]; simpl; [done|].
  unfold bind.
  replace (call h (builtin_callback b) st) with (@inr exn unit tt, st);
    [done|].
  by destruct b, h.
Qed.

Lemma builtin_dispatch_other_hooks_witness :
  OnEpochEnd ≠ OnBatchEnd ∧
  Compose.call OnEpochEnd
    (builtin_compose
       [("base", OfCallback); ("acc", OfMetricCallback acc_callback);
        ("p", OfMultiMetricCallback (p_callback [LStr "a"] [PInt 1]))])
    empty_batch
  = (inr tt, empty_batch).
Proof.
  split; [discriminate|].
  apply (builtin_dispatch_other_hooks OnEpochEnd
           [("base", OfCallback); ("acc", OfMetricCallback acc_callback);
            ("p", OfMultiMetricCallback (p_callback [LStr "a"] [PInt 1]))]
           empty_batch).
  discriminate.
Defined.
